(** * name_generator.py: a shallow embedding and its specification

    The program is a single Python module: a start-up block that reads the
    API credential, [extract_text] that unwraps a response object by probing
    its attributes, [generate_creative_names] that builds a prompt and issues
    one remote call, and the interactive [main].

    Python is dynamically typed, so the response handed to [extract_text] is
    modelled as a value of a small universe of Python values whose attribute
    reads may succeed, be missing or raise.  Strings are sequences of Unicode
    code points, as Python's [str] is. *)

From Stdlib Require Import ZArith NArith List String Ascii Lia DecimalString.
From stdpp Require Import base option list strings gmap.

#[local] Set Warnings "-register-all".
Local Open Scope N_scope.

(** ** Strings *)

(** A Python [str]: a sequence of code points. *)
Definition pystr := list N.

(** An ASCII literal of the source, as a [pystr]. *)
Definition lit (s : string) : pystr :=
  map N_of_ascii (list_ascii_of_string s).

Definition NL : N := 10.        (* "\n" *)
Definition DQUOTE : N := 34.    (* the double quote *)
Definition EM_DASH : N := 8212. (* U+2014 *)

(** [str.isspace] on one code point: the code points CPython's
    [_PyUnicode_IsWhitespace] accepts. *)
Definition py_isspace (c : N) : bool :=
  ((9 <=? c) && (c <=? 13)) || ((28 <=? c) && (c <=? 32))
  || (c =? 133) || (c =? 160) || (c =? 5760)
  || ((8192 <=? c) && (c <=? 8202))
  || (c =? 8232) || (c =? 8233) || (c =? 8239) || (c =? 8287) || (c =? 12288).

Fixpoint lstrip (s : pystr) : pystr :=
  match s with
  | [] => []
  | c :: r => if py_isspace c then lstrip r else s
  end.

Definition rstrip (s : pystr) : pystr := rev (lstrip (rev s)).

(** [s.strip()] *)
Definition strip (s : pystr) : pystr := rstrip (lstrip s).

(** [sep.join(l)] on strings. *)
Fixpoint join (sep : pystr) (l : list pystr) : pystr :=
  match l with
  | [] => []
  | [s] => s
  | s :: r => s ++ sep ++ join sep r
  end.

(** [str(n)] for an [int]. *)
Definition str_of_Z (z : Z) : pystr :=
  lit (NilZero.string_of_int (Z.to_int z)).

Definition str_of_nat (n : nat) : pystr := str_of_Z (Z.of_nat n).

(** ** Exceptions and results *)

Inductive exn_class :=
| AttributeError | TypeError | IndexError | EnvironmentError
| ImportError | EOFError | OtherException.

(** An exception of class [Exception]: its class and its [str(e)]. *)
Record pyexn := Raise { exn_cls : exn_class; exn_str : pystr }.

Inductive result (A : Type) :=
| Ok (a : A)
| Err (e : pyexn).
Arguments Ok {A} a.
Arguments Err {A} e.

#[global] Instance result_ret : MRet result := fun A a => Ok a.
#[global] Instance result_bind : MBind result := fun A B f m =>
  match m with
  | Ok a => f a
  | Err e => Err e
  end.

Definition is_attribute_error (e : pyexn) : bool :=
  match exn_cls e with AttributeError => true | _ => false end.

(** ** Python values *)

(** The values a response can be built from.  [PSeq] is a sequence object
    (a list, a tuple or a container class of the SDK): it can be indexed and
    iterated and carries its own class name and stringification.  [PObj] is
    an object with data attributes; reading an attribute yields a value or
    raises (a property).  Both carry the outcome of [str] on them, which may
    itself raise. *)
Inductive pyval :=
| PNone
| PBool (b : bool)
| PInt (z : Z)
| PStr (s : pystr)
| PSeq (cls : pystr) (items : list pyval) (str_ : result pystr)
| PObj (cls : pystr) (attrs : list (string * result pyval)) (str_ : result pystr).

Definition type_name (v : pyval) : pystr :=
  match v with
  | PNone => lit "NoneType"
  | PBool _ => lit "bool"
  | PInt _ => lit "int"
  | PStr _ => lit "str"
  | PSeq cls _ _ => cls
  | PObj cls _ _ => cls
  end.

(** [bool(v)]; an object is true, as one without [__bool__] and [__len__]
    is. *)
Definition truthy (v : pyval) : bool :=
  match v with
  | PNone => false
  | PBool b => b
  | PInt z => negb (Z.eqb z 0)
  | PStr s => match s with [] => false | _ => true end
  | PSeq _ items _ => match items with [] => false | _ => true end
  | PObj _ _ _ => true
  end.

(** [str(v)] *)
Definition py_str (v : pyval) : result pystr :=
  match v with
  | PNone => Ok (lit "None")
  | PBool b => Ok (if b then lit "True" else lit "False")
  | PInt z => Ok (str_of_Z z)
  | PStr s => Ok s
  | PSeq _ _ r => r
  | PObj _ _ r => r
  end.

Fixpoint lookup_attr (name : string) (attrs : list (string * result pyval))
  : option (result pyval) :=
  match attrs with
  | [] => None
  | (k, r) :: rest => if String.eqb k name then Some r else lookup_attr name rest
  end.

Definition no_attribute (v : pyval) (name : string) : pyexn :=
  Raise AttributeError
    (lit "'" ++ type_name v ++ lit "' object has no attribute '" ++ lit name ++ lit "'").

(** [v.name], for the data attributes this program reads ([text],
    [candidates], [content], [parts]): none of the built-in types has one. *)
Definition py_getattr (v : pyval) (name : string) : result pyval :=
  match v with
  | PObj _ attrs _ =>
      match lookup_attr name attrs with
      | Some r => r
      | None => Err (no_attribute v name)
      end
  | _ => Err (no_attribute v name)
  end.

(** [hasattr(v, name)]: the attribute is read and only an [AttributeError]
    is turned into [False]; any other exception propagates. *)
Definition py_hasattr (v : pyval) (name : string) : result bool :=
  match py_getattr v name with
  | Ok _ => Ok true
  | Err e => if is_attribute_error e then Ok false else Err e
  end.

(** The condition [hasattr(v, name) and v.name]. *)
Definition has_truthy (v : pyval) (name : string) : result bool :=
  h ← py_hasattr v name;
  if h : bool then x ← py_getattr v name; Ok (truthy x) else Ok false.

(** [v.strip()]: the string method, or the failure of the call.  Apart from
    [str], the values of this universe have no method of their own: an object
    carries data attributes only, so on it the call fails, for want of the
    attribute or because a data attribute cannot be called.  Values with a
    [strip] method of another type ([bytes], say) are not in the universe. *)
Definition call_strip (v : pyval) : result pystr :=
  match v with
  | PStr s => Ok (strip s)
  | _ =>
      f ← py_getattr v "strip";
      Err (Raise TypeError (lit "'" ++ type_name f ++ lit "' object is not callable"))
  end.

(** [v[0]] *)
Definition py_index0 (v : pyval) : result pyval :=
  match v with
  | PSeq cls items _ =>
      match items with
      | x :: _ => Ok x
      | [] => Err (Raise IndexError (cls ++ lit " index out of range"))
      end
  | PStr s =>
      match s with
      | c :: _ => Ok (PStr [c])
      | [] => Err (Raise IndexError (lit "string index out of range"))
      end
  | _ => Err (Raise TypeError (lit "'" ++ type_name v ++ lit "' object is not subscriptable"))
  end.

(** The items [for p in v] visits. *)
Definition py_iter (v : pyval) : result (list pyval) :=
  match v with
  | PSeq _ items _ => Ok items
  | PStr s => Ok (map (fun c => PStr [c]) s)
  | _ => Err (Raise TypeError (lit "'" ++ type_name v ++ lit "' object is not iterable"))
  end.

(** ["\n".join(out)]: every item has to be a [str]. *)
Fixpoint str_items (i : nat) (out : list pyval) : result (list pystr) :=
  match out with
  | [] => Ok []
  | PStr s :: rest => r ← str_items (S i) rest; Ok (s :: r)
  | v :: _ =>
      Err (Raise TypeError
             (lit "sequence item " ++ str_of_nat i ++ lit ": expected str instance, "
                ++ type_name v ++ lit " found"))
  end.

Definition py_join (sep : pystr) (out : list pyval) : result pystr :=
  l ← str_items 0 out; Ok (join sep l).

(** ** extract_text *)

(** The loop over [content.parts], with the list [out] it appends to. *)
Fixpoint collect_parts (ps : list pyval) (out : list pyval) : result (list pyval) :=
  match ps with
  | [] => Ok out
  | p :: rest =>
      c ← has_truthy p "text";
      if c : bool then
        t ← py_getattr p "text";
        collect_parts rest (out ++ [t])
      else
        c' ← has_truthy p "content";
        if c' : bool then
          x ← py_getattr p "content";
          s ← py_str x;
          collect_parts rest (out ++ [PStr s])
        else collect_parts rest out
  end.

(** The [if hasattr(content, "parts"):] block.  [Some s] is a [return s];
    [None] means control leaves the block. *)
Definition from_parts (content : pyval) : result (option pystr) :=
  h ← py_hasattr content "parts";
  if h : bool then
    parts ← py_getattr content "parts";
    ps ← py_iter parts;
    out ← collect_parts ps [];
    match out with
    | [] => Ok None
    | _ => j ← py_join [NL] out; Ok (Some (strip j))
    end
  else Ok None.

(** The body of the first [try]. *)
Definition structured (response : pyval) : result (option pystr) :=
  h ← py_hasattr response "candidates";
  if h : bool then
    cs ← py_getattr response "candidates";
    cand ← py_index0 cs;
    hc ← py_hasattr cand "content";
    if hc : bool then
      content ← py_getattr cand "content";
      r ← from_parts content;
      match r with
      | Some s => Ok (Some s)
      | None =>
          c ← has_truthy content "text";
          if c : bool then
            t ← py_getattr content "text";
            s ← call_strip t;
            Ok (Some s)
          else Ok None
      end
    else Ok None
  else Ok None.

(** The final fallback: [str(response)], or the sentinel when that raises. *)
Definition final_fallback (response : pyval) : pystr :=
  match py_str response with
  | Ok s => s
  | Err _ => lit "NO_TEXT_FOUND"
  end.

Definition extract_text (response : pyval) : result pystr :=
  c ← has_truthy response "text";
  if c : bool then
    t ← py_getattr response "text";
    call_strip t
  else
    match structured response with
    | Ok (Some s) => Ok s
    | Ok None | Err _ => Ok (final_fallback response)
    end.

(** ** The start-up block *)

(** What the process finds when it starts: its environment, the variables of
    the [.env] file if there is one, and whether the SDK can be imported. *)
Record host := Host {
  environ : gmap string pystr;
  dotenv_file : option (gmap string pystr);
  sdk_installed : bool }.

(** [load_dotenv()]: the file's variables are added to the environment; a
    variable that is already set keeps its value. *)
Definition load_dotenv (file : option (gmap string pystr))
    (env : gmap string pystr) : gmap string pystr :=
  match file with
  | Some f => env ∪ f
  | None => env
  end.

(** [os.getenv(name)] *)
Definition os_getenv (env : gmap string pystr) (name : string) : option pystr :=
  env !! name.

(** [bool(x)] for an [Optional[str]]. *)
Definition truthy_opt (x : option pystr) : bool :=
  match x with
  | Some (_ :: _) => true
  | _ => false
  end.

Record client := Client { api_key : pystr }.

Definition MODEL_NAME : pystr := lit "gemini-2.0-flash".

Definition missing_key : pyexn :=
  Raise EnvironmentError
    (lit "Missing GEMINI_API_KEY in .env file. Please create one.").

Definition missing_sdk : pyexn :=
  Raise ImportError
    (lit "The Google GenAI SDK is not installed. "
       ++ lit "Install with: pip install --upgrade google-genai python-dotenv").

(** The module-level statements before the function definitions. *)
Definition module_init (h : host) : result client :=
  let env := load_dotenv (dotenv_file h) (environ h) in
  let API_KEY := os_getenv env "GEMINI_API_KEY" in
  if negb (truthy_opt API_KEY) then Err missing_key
  else if negb (sdk_installed h) then Err missing_sdk
  else Ok (Client (default [] API_KEY)).

(** ** Requests and the world *)

(** A [float] literal of the source, kept as written: the program only
    passes the temperature on. *)
Record pyfloat := Decimal { digits : Z; exponent : Z }.

Record gen_config := GenerateContentConfig {
  system_instruction : pystr;
  temperature : pyfloat;
  max_output_tokens : Z }.

Record request := Request {
  model : pystr;
  contents : pystr;
  config : gen_config }.

(** The world a run acts on: the remote service (what it answers to a
    request made with a given key), the lines still to be read on standard
    input, what was written on standard output, and the requests sent. *)
Record world := World {
  remote : pystr -> request -> result pyval;
  stdin : list pystr;
  stdout : pystr;
  calls : list request }.

Definition io (A : Type) : Type := world -> result A * world.

#[global] Instance io_ret : MRet io := fun A a w => (Ok a, w).
#[global] Instance io_bind : MBind io := fun A B f m w =>
  match m w with
  | (Ok a, w') => f a w'
  | (Err e, w') => (Err e, w')
  end.

Definition lift {A} (r : result A) : io A := fun w => (r, w).

(** [try: m except Exception as e: h e] *)
Definition try_except {A} (m : io A) (h : pyexn -> io A) : io A := fun w =>
  match m w with
  | (Ok a, w') => (Ok a, w')
  | (Err e, w') => h e w'
  end.

Definition write (s : pystr) : io unit := fun w =>
  (Ok tt, World (remote w) (stdin w) (stdout w ++ s) (calls w)).

(** [print(s)] *)
Definition print (s : pystr) : io unit := write (s ++ [NL]).

(** [input(prompt)]: the prompt is written, one line is read; at end of
    input [EOFError] is raised. *)
Definition input (prompt : pystr) : io pystr := fun w =>
  let out := stdout w ++ prompt in
  match stdin w with
  | l :: rest => (Ok l, World (remote w) rest out (calls w))
  | [] => (Err (Raise EOFError (lit "EOF when reading a line")),
           World (remote w) [] out (calls w))
  end.

(** [client.models.generate_content(model=..., contents=..., config=...)] *)
Definition generate_content (c : client) (req : request) : io pyval := fun w =>
  (remote w (api_key c) req,
   World (remote w) (stdin w) (stdout w) (calls w ++ [req])).

(** ** generate_creative_names *)

(** Python's two-argument [min] and [max] on integers. *)
Definition py_min (a b : Z) : Z := if (b <? a)%Z then b else a.
Definition py_max (a b : Z) : Z := if (b >? a)%Z then b else a.

(** [max(1, min(count, 20))] *)
Definition clamp_count (count : Z) : Z := py_max 1 (py_min count 20).

Definition the_system_instruction : pystr :=
  lit "You are a world-class naming expert. ALWAYS be concise. "
  ++ lit "Each name + explanation must be UNDER 8 words total. "
  ++ lit "Only output the numbered list in the exact format. "
  ++ lit "Follow all user constraints softly but prioritize quality.".

(** [f"Constraints: {constraints}." if constraints else ""] *)
Definition constraint_text (constraints : option pystr) : pystr :=
  match constraints with
  | Some c => if truthy_opt constraints then lit "Constraints: " ++ c ++ lit "." else []
  | None => []
  end.

(** The text before and after the constraints clause. *)
Definition prompt_head (count : Z) (name_type theme : pystr) : pystr :=
  lit "Generate exactly " ++ str_of_Z count ++ lit " creative " ++ name_type
  ++ lit " for the theme: " ++ [DQUOTE] ++ theme ++ [DQUOTE] ++ lit "." ++ [NL].

Definition prompt_tail : pystr :=
  [NL; NL]
  ++ lit "Strict output format:" ++ [NL]
  ++ lit "1. NAME " ++ [EM_DASH] ++ lit " Etymology/Meaning: ... | Why it works: ..." ++ [NL]
  ++ lit "2. NAME " ++ [EM_DASH] ++ lit " ..." ++ [NL]
  ++ lit "Only the numbered list.".

(** The prompt, for a count that is already clamped. *)
Definition build_prompt (count : Z) (name_type theme : pystr)
    (constraints : option pystr) : pystr :=
  prompt_head count name_type theme ++ constraint_text constraints ++ prompt_tail.

Definition api_error (e : pyexn) : pystr :=
  lit "API Error: Failed to generate content: " ++ exn_str e.

Definition generate_creative_names (c : client) (name_type theme : pystr)
    (count : Z) (constraints : option pystr) (temp : pyfloat) : io pystr :=
  let count := clamp_count count in
  let prompt := build_prompt count name_type theme constraints in
  let cfg := GenerateContentConfig the_system_instruction temp 800 in
  _ ← print (lit "Sending request to " ++ MODEL_NAME ++ lit "...");
  try_except
    (response ← generate_content c (Request MODEL_NAME prompt cfg);
     lift (extract_text response))
    (fun e => mret (api_error e)).

(** ** main *)

Definition default_count : Z := 5.
Definition default_temperature : pyfloat := Decimal 9 (-1).   (* 0.9 *)

Definition required_message : pystr :=
  [NL] ++ lit "Type and Theme are required. Exiting.".

Definition main (c : client) : io unit :=
  _ ← print ([NL] ++ lit "=== Gemini API Creative Name Generator ===" ++ [NL]);
  _ ← print (lit "This script connects to the Gemini model to brainstorm names." ++ [NL]);
  name_type ← input (lit "Enter the type of names (e.g., company names, character names): ");
  theme ← input (lit "Enter Theme/genre: ");
  let count := default_count in
  raw ← input (lit "Enter all requirements (e.g., length, starting letter, style, banned letters): ");
  let constraints := strip raw in
  let constraints := if truthy (PStr constraints) then Some constraints else None in
  if negb (truthy (PStr name_type)) || negb (truthy (PStr theme)) then
    print required_message
  else
    _ ← print ([NL] ++ lit "Generating..." ++ [NL]);
    result ← generate_creative_names c name_type theme count constraints default_temperature;
    _ ← print result;
    print ([NL] ++ lit "=== GENERATION COMPLETE ===" ++ [NL]).

(** Running the file as a script: the start-up block, then [main()]. *)
Definition script (h : host) : io unit := fun w =>
  match module_init h with
  | Err e => (Err e, w)
  | Ok c => main c w
  end.

(** ** Definitions used to state the properties *)

(** [needle in s] on strings. *)
Fixpoint starts_with (needle s : pystr) : bool :=
  match needle, s with
  | [], _ => true
  | c :: n, d :: r => (c =? d) && starts_with n r
  | _ :: _, [] => false
  end.

Fixpoint contains (s needle : pystr) : bool :=
  starts_with needle s
  || match s with
     | [] => false
     | _ :: r => contains r needle
     end.

Definition substring (needle s : pystr) : Prop :=
  exists a b, s = a ++ needle ++ b.

(** A string that is empty or made of whitespace only. *)
Definition blank (s : pystr) : bool := forallb py_isspace s.

(** The direct [text] attribute is harmless: it is missing, or it reads as
    a string or as a falsy value. *)
Definition direct_text_ok (response : pyval) : bool :=
  match py_getattr response "text" with
  | Ok (PStr _) => true
  | Ok v => negb (truthy v)
  | Err e => is_attribute_error e
  end.

(** The attribute is missing or falsy. *)
Definition lacks (v : pyval) (name : string) : bool :=
  match py_getattr v name with
  | Ok x => negb (truthy x)
  | Err e => is_attribute_error e
  end.

(** What the [content] attribute of a part contributes: its stringification
    when it is non-empty, nothing ([Some None]) when it is missing or empty.
    The outer [None] marks an attribute or a [str] that raises. *)
Definition content_fragment (p : pyval) : option (option pystr) :=
  match py_getattr p "content" with
  | Ok x =>
      if truthy x then
        match py_str x with
        | Ok s => Some (Some s)
        | Err _ => None
        end
      else Some None
  | Err e => if is_attribute_error e then Some None else None
  end.

(** What one part contributes to the collected sequence: its text when that
    is a non-empty string; otherwise what its [content] contributes.  The
    outer [None] also marks a non-empty text that is not a string and a
    [text] attribute that raises. *)
Definition part_fragment (p : pyval) : option (option pystr) :=
  match py_getattr p "text" with
  | Ok (PStr (c :: s)) => Some (Some (c :: s))
  | _ => if lacks p "text" then content_fragment p else None
  end.

Fixpoint fragments (ps : list pyval) : option (list pystr) :=
  match ps with
  | [] => Some []
  | p :: rest =>
      match part_fragment p, fragments rest with
      | Some (Some s), Some fs => Some (s :: fs)
      | Some None, Some fs => Some fs
      | _, _ => None
      end
  end.

(** The collection as the specification words it: every part contributes
    its text field, or, when it has none, the stringification of its
    [content] field; the contributions are joined with newlines and the
    result is trimmed. *)
Definition worded_fragment (p : pyval) : option pystr :=
  match py_getattr p "text" with
  | Ok (PStr s) => Some s
  | _ =>
      match py_getattr p "content" with
      | Ok x => match py_str x with Ok s => Some s | Err _ => None end
      | Err _ => None
      end
  end.

Definition worded_parts_text (ps : list pyval) : option pystr :=
  fs ← mapM worded_fragment ps; Some (strip (join [NL] fs)).

(** The request [generate_creative_names] sends. *)
Definition request_of (name_type theme : pystr) (count : Z)
    (constraints : option pystr) (temp : pyfloat) : request :=
  Request MODEL_NAME
    (build_prompt (clamp_count count) name_type theme constraints)
    (GenerateContentConfig the_system_instruction temp 800).

(** What [generate_creative_names] returns for the request it sends: the
    extracted text, or the error string when the call or the extraction
    raises. *)
Definition requester_result (c : client) (w : world) (req : request) : pystr :=
  match remote w (api_key c) req with
  | Ok response =>
      match extract_text response with
      | Ok s => s
      | Err e => api_error e
      end
  | Err e => api_error e
  end.

(** [constraints] as [main] passes it on, from the line read. *)
Definition constraints_of (raw : pystr) : option pystr :=
  match strip raw with
  | [] => None
  | c => Some c
  end.

(** The word that opens the constraints clause. *)
Definition clause_marker : pystr := lit "Constraints:".

(** The progress line of [generate_creative_names], as written. *)
Definition sending_line : pystr :=
  (lit "Sending request to " ++ MODEL_NAME ++ lit "...") ++ [NL].

(** What [main] writes before it looks at its inputs. *)
Definition preamble : pystr :=
  ([NL] ++ lit "=== Gemini API Creative Name Generator ===" ++ [NL]) ++ [NL]
  ++ (lit "This script connects to the Gemini model to brainstorm names." ++ [NL]) ++ [NL]
  ++ lit "Enter the type of names (e.g., company names, character names): "
  ++ lit "Enter Theme/genre: "
  ++ lit "Enter all requirements (e.g., length, starting letter, style, banned letters): ".

Definition generating_line : pystr := ([NL] ++ lit "Generating..." ++ [NL]) ++ [NL].

Definition complete_line : pystr :=
  ([NL] ++ lit "=== GENERATION COMPLETE ===" ++ [NL]) ++ [NL].

(** ** Sample values *)

(** An object of class [cls] with the given data attributes and a
    stringification in the default style. *)
Definition obj (cls : string) (attrs : list (string * pyval)) : pyval :=
  PObj (lit cls) (map (fun kv => (fst kv, Ok (snd kv))) attrs)
    (Ok (lit "<" ++ lit cls ++ lit " object>")).

(** A list of objects, whose [repr] is their [str]. *)
Definition py_list (items : list pyval) : pyval :=
  PSeq (lit "list") items
    (strs ← mapM py_str items; Ok (lit "[" ++ join (lit ", ") strs ++ lit "]")).

Definition text_part (t : string) : pyval := obj "Part" [("text"%string, PStr (lit t))].

Definition response_of_content (top : list (string * pyval)) (content : pyval) : pyval :=
  obj "Response"
    (top ++ [("candidates"%string,
              py_list [obj "Candidate" [("content"%string, content)]])]).

Definition response_of_parts (top : list (string * pyval)) (ps : list pyval) : pyval :=
  response_of_content top (obj "Content" [("parts"%string, py_list ps)]).

Definition empty_object : pyval := obj "object" [].

Definition int_text_response : pyval := obj "Response" [("text"%string, PInt 5)].

(** The integer 5 as the content's own text, in a content without parts. *)
Definition int_content_response : pyval :=
  response_of_content [] (obj "Content" [("text"%string, PInt 5)]).

Definition gap_parts : list pyval := [text_part "A"; text_part ""; text_part "B"].

Definition sample_client : client := Client (lit "secret").

(** A world whose remote service always answers [r]. *)
Definition sample_world (r : result pyval) (lines : list string) : world :=
  World (fun _ _ => r) (map lit lines) [] [].

(** A content whose only part is empty, with a text of its own. *)
Definition deep_content : pyval :=
  obj "Content" [("parts"%string, py_list [obj "Part" []]);
                 ("text"%string, PStr (lit " Deep "))].

Definition empty_part_response : pyval := response_of_content [] deep_content.

(** The lines typed: a name type, a theme of one space, no constraints. *)
Definition blank_theme_world : world :=
  sample_world (Ok empty_object) ["company names"; " "; ""]%string.

Definition blank_constraints_world : world :=
  sample_world (Ok empty_object) ["company names"; "AI"; "   "]%string.

Definition timeout_error : pyexn := Raise OtherException (lit "timeout").

(** Further sample values. *)

Definition one_line_world : world :=
  sample_world (Ok empty_object) ["company names"]%string.

Definition empty_theme_world : world :=
  sample_world (Ok empty_object) ["company names"; ""; "short"]%string.

Definition constrained_world : world :=
  sample_world (Ok empty_object)
    ["company names"; "AI"; " must start with Z "]%string.

Definition timeout_world : world :=
  sample_world (Err timeout_error) ["company names"; "AI"; ""]%string.

Definition key_name : string := "GEMINI_API_KEY".

Definition host_with_key : host := Host {[ key_name := lit "secret" ]} None true.

Definition host_without_sdk : host := Host {[ key_name := lit "secret" ]} None false.

Definition host_empty_key : host := Host {[ key_name := [] ]} None true.

Definition host_dotenv_key : host :=
  Host ∅ (Some {[ key_name := lit "secret" ]}) true.

Definition candidate_of_parts (ps : list pyval) : pyval :=
  obj "Candidate" [("content"%string, obj "Content" [("parts"%string, py_list ps)])].

(** Two candidates; the second one holds another text. *)
Definition two_candidates_response : pyval :=
  obj "Response"
    [("candidates"%string,
      py_list [candidate_of_parts [text_part "A"]; candidate_of_parts [text_part "Z"]])].

(** A content without parts and with a text of its own. *)
Definition text_only_content : pyval :=
  obj "Content" [("text"%string, PStr (lit " Only "))].

Definition no_candidates_response : pyval :=
  obj "Response" [("candidates"%string, py_list [])].

(** A part whose text is the integer 7, after a part with a proper text. *)
Definition odd_parts : list pyval :=
  [text_part "A"; obj "Part" [("text"%string, PInt 7)]].

Definition blank_text_response : pyval :=
  response_of_parts [("text"%string, PStr (lit "  "))] [text_part "A"].

(** * Properties *)

(** ** Attribute probes *)

Lemma has_truthy_unfold (v : pyval) (name : string) :
  has_truthy v name =
  match py_getattr v name with
  | Ok x => Ok (truthy x)
  | Err e => if is_attribute_error e then Ok false else Err e
  end.
Proof.
  unfold has_truthy, py_hasattr.
  destruct (py_getattr v name) as [x|e]; cbn.
  - reflexivity.
  - now destruct (is_attribute_error e).
Qed.

Lemma lacks_has_truthy (v : pyval) (name : string) :
  lacks v name = true <-> has_truthy v name = Ok false.
Proof.
  rewrite has_truthy_unfold. unfold lacks.
  destruct (py_getattr v name) as [x|e].
  - destruct (truthy x); cbn; split; congruence.
  - destruct (is_attribute_error e); split; congruence.
Qed.

Lemma py_hasattr_of_getattr (v x : pyval) (name : string) :
  py_getattr v name = Ok x -> py_hasattr v name = Ok true.
Proof. unfold py_hasattr. now intros ->. Qed.

Lemma has_truthy_nonempty_str (v : pyval) (name : string) (s : pystr) :
  py_getattr v name = Ok (PStr s) -> s <> [] -> has_truthy v name = Ok true.
Proof.
  intros H Hs. rewrite has_truthy_unfold, H. destruct s; [contradiction|reflexivity].
Qed.

(** Once the direct text is out of the way, [extract_text] cannot raise. *)
Lemma extract_text_fallthrough (response : pyval) :
  has_truthy response "text" = Ok false ->
  extract_text response =
  Ok (match structured response with
      | Ok (Some s) => s
      | _ => final_fallback response
      end).
Proof.
  intros H. unfold extract_text. rewrite H. cbn.
  now destruct (structured response) as [[s|]|e].
Qed.

(** With a harmless direct text, [extract_text] does not raise. *)
Lemma extract_text_ok_of_harmless (response : pyval) :
  direct_text_ok response = true -> exists s, extract_text response = Ok s.
Proof.
  unfold direct_text_ok, extract_text. rewrite has_truthy_unfold.
  destruct (py_getattr response "text") as [v|e]; cbn.
  - destruct (truthy v) eqn:T; cbn.
    + destruct v; try (cbn in T; discriminate); try discriminate.
      intros _. eexists. reflexivity.
    + intros _. destruct (structured response) as [[s|]|e]; eauto.
  - destruct (is_attribute_error e); cbn; [|discriminate].
    intros _. destruct (structured response) as [[s|]|e']; eauto.
Qed.

(** ** The loop over the parts *)

Lemma part_fragment_cases (p : pyval) (f : option pystr) :
  part_fragment p = Some f ->
  (has_truthy p "text" = Ok true /\
   exists s, py_getattr p "text" = Ok (PStr s) /\ f = Some s)
  \/ (has_truthy p "text" = Ok false /\ has_truthy p "content" = Ok true /\
      exists x s, py_getattr p "content" = Ok x /\ py_str x = Ok s /\ f = Some s)
  \/ (has_truthy p "text" = Ok false /\ has_truthy p "content" = Ok false /\
      f = None).
Proof.
  unfold part_fragment. intros H.
  destruct (lacks p "text") eqn:L.
  - assert (Hc : content_fragment p = Some f).
    { unfold lacks in L.
      destruct (py_getattr p "text") as [[| | |[|c s]| |]|e]; try exact H.
      discriminate L. }
    clear H. apply lacks_has_truthy in L. right.
    unfold content_fragment in Hc. rewrite (has_truthy_unfold p "content").
    destruct (py_getattr p "content") as [x|e].
    + destruct (truthy x).
      * destruct (py_str x) as [s|] eqn:S; [|discriminate].
        injection Hc as <-. left. eauto 10.
      * injection Hc as <-. right. eauto.
    + destruct (is_attribute_error e); [|discriminate].
      injection Hc as <-. right. eauto.
  - left. rewrite has_truthy_unfold.
    destruct (py_getattr p "text") as [[| | |[|c s]| |]|e]; try discriminate.
    injection H as <-. eauto.
Qed.

Lemma collect_parts_step (p : pyval) (rest out : list pyval) (f : option pystr) :
  part_fragment p = Some f ->
  collect_parts (p :: rest) out =
  collect_parts rest (out ++ match f with Some s => [PStr s] | None => [] end).
Proof.
  intros H. cbn [collect_parts].
  destruct (part_fragment_cases p f H)
    as [(Ht & s & E & ->)|[(Ht & Hc & x & s & E & S & ->)|(Ht & Hc & ->)]];
    rewrite Ht; cbn.
  - now rewrite E.
  - rewrite Hc; cbn. rewrite E; cbn. now rewrite S.
  - rewrite Hc; cbn. now rewrite app_nil_r.
Qed.

Lemma collect_parts_fragments (ps : list pyval) :
  forall fs out, fragments ps = Some fs ->
  collect_parts ps out = Ok (out ++ map PStr fs).
Proof.
  induction ps as [|p rest IH]; intros fs out H; cbn [fragments] in H.
  - injection H as <-. cbn. now rewrite app_nil_r.
  - destruct (part_fragment p) as [f|] eqn:Pf; [|discriminate].
    destruct (fragments rest) as [fs'|] eqn:Fr; [|destruct f; discriminate].
    rewrite (collect_parts_step _ _ _ _ Pf), (IH _ _ eq_refl).
    destruct f; injection H as <-; cbn.
    + now rewrite <- app_assoc.
    + now rewrite app_nil_r.
Qed.

Lemma str_items_strings (fs : list pystr) :
  forall i, str_items i (map PStr fs) = Ok fs.
Proof.
  induction fs as [|s fs IH]; intros i; cbn; [reflexivity|].
  now rewrite IH.
Qed.

Lemma part_fragment_nothing (p : pyval) :
  lacks p "text" = true -> lacks p "content" = true -> part_fragment p = Some None.
Proof.
  intros Ht Hc. unfold part_fragment. rewrite Ht.
  assert (content_fragment p = Some None) as ->.
  { unfold content_fragment. unfold lacks in Hc.
    destruct (py_getattr p "content") as [x|e]; [|now rewrite Hc].
    now destruct (truthy x). }
  unfold lacks in Ht.
  destruct (py_getattr p "text") as [[| | |[|c s]| |]|e]; try reflexivity.
  discriminate Ht.
Qed.

Lemma fragments_nothing (ps : list pyval) :
  forallb (fun p => lacks p "text" && lacks p "content") ps = true ->
  fragments ps = Some [].
Proof.
  induction ps as [|p rest IH]; cbn; [reflexivity|].
  intros [[Ht Hc]%andb_prop R]%andb_prop.
  now rewrite (part_fragment_nothing p Ht Hc), (IH R).
Qed.

(** Everything the loop appends stays in [out], and a part's non-empty text
    is appended as it is. *)
Lemma collect_parts_keeps (ps : list pyval) :
  forall out out', collect_parts ps out = Ok out' ->
  (forall x, In x out -> In x out') /\
  (forall p v, In p ps -> py_getattr p "text" = Ok v -> truthy v = true -> In v out').
Proof.
  induction ps as [|p rest IH]; intros out out' H.
  - injection H as <-. split; [auto|]. intros p v [].
  - cbn [collect_parts] in H. rewrite !has_truthy_unfold in H.
    assert (forall o, collect_parts rest o = Ok out' ->
            (forall x, In x out -> In x o) ->
            (forall v, py_getattr p "text" = Ok v -> truthy v = true -> In v o) ->
            (forall x, In x out -> In x out') /\
            (forall p0 v, In p0 (p :: rest) -> py_getattr p0 "text" = Ok v ->
                          truthy v = true -> In v out')) as K.
    { intros o Ho Hsub Hp. destruct (IH _ _ Ho) as [I1 I2]. split; [auto|].
      intros p0 v [<-|Hin] Hv Tv; [apply I1; auto|eapply I2; eauto]. }
    destruct (py_getattr p "text") as [t|e] eqn:Et.
    + cbn in H. destruct (truthy t) eqn:Tt; cbn in H.
      * apply (K _ H).
        -- intros x Hx. apply in_or_app. now left.
        -- intros v [= <-] _. apply in_or_app. right. now left.
      * assert (forall v, Ok t = Ok v -> truthy v = true -> In v out) as Hno
          by (intros v [= <-]; congruence).
        destruct (py_getattr p "content") as [x|e]; cbn in H.
        -- destruct (truthy x); cbn in H.
           ++ destruct (py_str x) as [sx|]; cbn in H; [|discriminate].
              apply (K _ H).
              ** intros y Hy. apply in_or_app. now left.
              ** intros v Hv Tv. apply in_or_app. left. now apply Hno.
           ++ apply (K _ H); auto.
        -- destruct (is_attribute_error e); cbn in H; [|discriminate].
           apply (K _ H); auto.
    + destruct (is_attribute_error e); cbn in H; [|discriminate].
      destruct (py_getattr p "content") as [x|e']; cbn in H.
      * destruct (truthy x); cbn in H.
        -- destruct (py_str x) as [sx|]; cbn in H; [|discriminate].
           apply (K _ H).
           ++ intros y Hy. apply in_or_app. now left.
           ++ intros v [=].
        -- apply (K _ H); [auto|]. intros v [=].
      * destruct (is_attribute_error e'); cbn in H; [|discriminate].
        apply (K _ H); [auto|]. intros v [=].
Qed.

(** Joining fails as soon as one item is not a string. *)
Lemma str_items_nonstring (v : pyval) (out : list pyval) :
  In v out -> (forall s, v <> PStr s) ->
  forall i, exists e, str_items i out = Err e.
Proof.
  intros Hin Hv. induction out as [|x out IH]; intros i; [destruct Hin|].
  destruct x as [| b | z | s | ? ? ? | ? ? ?]; cbn; eauto.
  destruct Hin as [<-|Hin]; [now destruct (Hv s)|].
  destruct (IH Hin (S i)) as [e ->]. cbn. eauto.
Qed.

(** What [fragments] rejects, the loop or the join fails on. *)
Lemma fragments_none_fails (ps : list pyval) :
  fragments ps = None ->
  forall out,
    (exists e, collect_parts ps out = Err e) \/
    (exists out' v, collect_parts ps out = Ok out' /\ In v out' /\
                    forall s, v <> PStr s).
Proof.
  induction ps as [|p rest IH]; intros H out; [discriminate|].
  cbn [fragments] in H.
  destruct (part_fragment p) as [f|] eqn:Pf.
  - rewrite (collect_parts_step _ _ _ _ Pf). apply IH.
    destruct (fragments rest); [destruct f; discriminate|reflexivity].
  - clear H IH. cbn [collect_parts]. rewrite !has_truthy_unfold.
    unfold part_fragment, lacks in Pf.
    destruct (py_getattr p "text") as [v|e] eqn:Et.
    + destruct (truthy v) eqn:Tv; cbn.
      * assert (forall s, v <> PStr s) as Ns.
        { intros s ->. destruct s; cbn in *; discriminate. }
        destruct (collect_parts rest (out ++ [v])) as [out'|e] eqn:C; [|eauto].
        right. exists out', v. split; [reflexivity|]. split; [|exact Ns].
        apply (proj1 (collect_parts_keeps _ _ _ C)).
        apply in_or_app. right. now left.
      * assert (content_fragment p = None) as Hc
          by (destruct v as [| | |[|? ?]| |]; cbn in *; congruence).
        unfold content_fragment in Hc.
        destruct (py_getattr p "content") as [x|e]; cbn.
        -- destruct (truthy x); cbn; [|discriminate].
           destruct (py_str x); cbn; [discriminate|eauto].
        -- destruct (is_attribute_error e); cbn; [discriminate|eauto].
    + destruct (is_attribute_error e); cbn; [|eauto].
      unfold content_fragment in Pf.
      destruct (py_getattr p "content") as [x|e']; cbn.
      * destruct (truthy x); cbn; [|discriminate].
        destruct (py_str x); cbn; [discriminate|eauto].
      * destruct (is_attribute_error e'); cbn; [discriminate|eauto].
Qed.

Section StructuredResponse.

(** A response without a usable direct text whose first candidate has a
    content with a sequence of parts. *)
Variables (response cs cand content parts : pyval) (ps : list pyval).
Hypothesis no_direct_text : lacks response "text" = true.
Hypothesis has_candidates : py_getattr response "candidates" = Ok cs.
Hypothesis first_candidate : py_index0 cs = Ok cand.
Hypothesis has_content : py_getattr cand "content" = Ok content.
Hypothesis has_parts : py_getattr content "parts" = Ok parts.
Hypothesis parts_sequence : py_iter parts = Ok ps.

Lemma from_parts_fragments (fs : list pystr) :
  fragments ps = Some fs ->
  from_parts content =
  Ok (match fs with [] => None | _ => Some (strip (join [NL] fs)) end).
Proof using has_parts parts_sequence.
  intros H. unfold from_parts.
  rewrite (py_hasattr_of_getattr _ _ _ has_parts); cbn.
  rewrite has_parts; cbn. rewrite parts_sequence; cbn.
  rewrite (collect_parts_fragments _ _ _ H); cbn.
  destruct fs as [|s fs]; [reflexivity|].
  unfold py_join. cbn [map str_items].
  now rewrite str_items_strings.
Qed.

Lemma structured_at_content :
  structured response =
  (r ← from_parts content;
   match r with
   | Some s => Ok (Some s)
   | None =>
       c ← has_truthy content "text";
       if c : bool then
         t ← py_getattr content "text"; s ← call_strip t; Ok (Some s)
       else Ok None
   end).
Proof using has_candidates first_candidate has_content.
  unfold structured.
  rewrite (py_hasattr_of_getattr _ _ _ has_candidates); cbn.
  rewrite has_candidates; cbn. rewrite first_candidate; cbn.
  rewrite (py_hasattr_of_getattr _ _ _ has_content); cbn.
  now rewrite has_content.
Qed.

(** C6, as amended: for a response without a non-empty direct text whose
    first candidate's content has a sequence of parts, [extract_text] goes
    through the parts in order and collects each part's text when it is
    non-empty and, when the text is missing or empty, the stringification of
    its [content] when that is present and non-empty (a part with neither
    contributes nothing).  When every collected text is a string, nothing
    raised on the way and at least one fragment was collected, it returns
    the fragments joined with newlines, trimmed.  When a collected text is
    not a string, or reading an attribute of a part or stringifying its
    content raises, the result is the final fallback. *)
Theorem extract_text_joins_fragments :
  (forall fs, fragments ps = Some fs -> fs <> [] ->
     extract_text response = Ok (strip (join [NL] fs))) /\
  (fragments ps = None ->
     extract_text response = Ok (final_fallback response)).
Proof using All.
  split.
  - intros fs F N.
    rewrite extract_text_fallthrough by now apply lacks_has_truthy.
    rewrite structured_at_content, (from_parts_fragments fs F).
    destruct fs; [contradiction|reflexivity].
  - intros F.
    rewrite extract_text_fallthrough by now apply lacks_has_truthy.
    rewrite structured_at_content.
    assert (exists e, from_parts content = Err e) as [e ->]; [|reflexivity].
    unfold from_parts. rewrite (py_hasattr_of_getattr _ _ _ has_parts). cbn.
    rewrite has_parts. cbn. rewrite parts_sequence. cbn.
    destruct (fragments_none_fails ps F []) as [[e ->]|(out & v & -> & Hin & Ns)];
      cbn; [eauto|].
    destruct out as [|x out]; [destruct Hin|].
    unfold py_join.
    destruct (str_items_nonstring v (x :: out) Hin Ns 0%nat) as [e ->]. cbn. eauto.
Qed.

(** C9: when the loop over the parts collects nothing (every part lacks a
    non-empty text and a non-empty [content]), extraction goes on to the
    content's own [text]: a non-empty string there is returned trimmed, and
    in every other case the whole response is stringified (the final
    fallback). *)
Theorem extract_text_without_fragments :
  forallb (fun p => lacks p "text" && lacks p "content") ps = true ->
  extract_text response =
  Ok (match py_getattr content "text" with
      | Ok (PStr (c :: s)) => strip (c :: s)
      | _ => final_fallback response
      end).
Proof using All.
  intros F.
  rewrite extract_text_fallthrough by now apply lacks_has_truthy.
  rewrite structured_at_content, (from_parts_fragments [] (fragments_nothing _ F)).
  cbn. rewrite has_truthy_unfold.
  destruct (py_getattr content "text") as [v|e]; cbn.
  - destruct v as [| b | z | [|c s] | ? [|? ?] ? | ? ? ?]; cbn; try reflexivity.
    + now destruct b.
    + now destruct (negb (z =? 0)%Z).
    + now destruct (lookup_attr _ _) as [[f|e]|].
  - now destruct (is_attribute_error e).
Qed.

End StructuredResponse.

(** ** extract_text as a whole *)

(** C1: on a response whose direct text is the integer 5, [extract_text]
    raises: [.strip()] fails at the first step, outside both [try] blocks.
    The same integer as the content's own text, where the same call sits
    inside the [try], is absorbed and the response is stringified. *)
Theorem extract_text_int_text_raises :
  extract_text int_text_response =
    Err (Raise AttributeError (lit "'int' object has no attribute 'strip'")) /\
  extract_text int_content_response = Ok (lit "<Response object>").
Proof. split; reflexivity. Qed.

(** C5: a non-empty direct text is returned trimmed, whatever else the
    response carries. *)
Theorem extract_text_direct_text (response : pyval) (s : pystr) :
  py_getattr response "text" = Ok (PStr s) -> s <> [] ->
  extract_text response = Ok (strip s).
Proof.
  intros H N. unfold extract_text.
  rewrite (has_truthy_nonempty_str _ _ _ H N). cbn. now rewrite H.
Qed.

(** ** Strings: trimming and searching *)

Lemma lstrip_nil_iff (s : pystr) : lstrip s = [] <-> blank s = true.
Proof.
  unfold blank. induction s as [|c r IH]; cbn; [easy|].
  destruct (py_isspace c); cbn; [exact IH|easy].
Qed.

Lemma lstrip_head (s : pystr) :
  match lstrip s with
  | [] => True
  | c :: _ => py_isspace c = false
  end.
Proof.
  induction s as [|c r IH]; cbn; [exact I|].
  destruct (py_isspace c) eqn:E; [exact IH|exact E].
Qed.

Lemma blank_rev (s : pystr) : blank (rev s) = blank s.
Proof.
  unfold blank. apply eq_true_iff_eq.
  rewrite !forallb_forall. split; intros H x Hx; apply H; now apply in_rev in Hx || apply in_rev.
Qed.

Lemma strip_nil_iff (s : pystr) : strip s = [] <-> blank s = true.
Proof.
  unfold strip, rstrip. split.
  - intros H. apply (f_equal (@rev N)) in H. rewrite rev_involutive in H. cbn in H.
    apply lstrip_nil_iff in H. rewrite blank_rev in H.
    pose proof (lstrip_head s) as Hh.
    destruct (lstrip s) as [|c r] eqn:E.
    + now apply lstrip_nil_iff.
    + unfold blank in H. cbn in H. now rewrite Hh in H.
  - intros H. apply lstrip_nil_iff in H. now rewrite H.
Qed.

Lemma constraints_of_blank (raw : pystr) :
  constraints_of raw = if blank raw then None else Some (strip raw).
Proof.
  unfold constraints_of. destruct (blank raw) eqn:B.
  - apply strip_nil_iff in B. now rewrite B.
  - destruct (strip raw) eqn:E; [|reflexivity].
    apply strip_nil_iff in E. congruence.
Qed.

Lemma starts_with_iff (needle s : pystr) :
  starts_with needle s = true <-> exists b, s = needle ++ b.
Proof.
  revert s. induction needle as [|c n IH]; intros s; cbn.
  - split; eauto.
  - destruct s as [|d r].
    + split; [discriminate|]. intros [b [=]].
    + rewrite andb_true_iff, N.eqb_eq, IH. split.
      * intros [-> [b ->]]. eauto.
      * intros [b [= -> ->]]. eauto.
Qed.

Lemma contains_iff (s needle : pystr) :
  contains s needle = true <-> substring needle s.
Proof.
  unfold substring. induction s as [|d r IH].
  - cbn. rewrite orb_false_r, starts_with_iff. split.
    + intros [b E]. exists [], b. exact E.
    + intros (a & b & E). destruct a; [eauto|discriminate].
  - cbn [contains]. rewrite orb_true_iff, starts_with_iff, IH. split.
    + intros [[b E]|(a & b & E)].
      * exists [], b. exact E.
      * exists (d :: a), b. now rewrite E.
    + intros ([|x a] & b & E).
      * left. eauto.
      * right. injection E as -> E. eauto.
Qed.

(** A character that does not occur in the needle separates the search. *)
Lemma substring_separator (needle a b : pystr) (c : N) :
  ~ In c needle ->
  substring needle (a ++ c :: b) -> substring needle a \/ substring needle b.
Proof.
  intros Hc (x & y & E).
  apply app_eq_app in E as [l [[-> E]|[-> E]]].
  - apply app_eq_app in E as [l' [[-> E]|[-> E]]].
    + destruct l' as [|d l']; cbn in E.
      * left. exists x, []. now rewrite !app_nil_r.
      * injection E as -> _. exfalso. apply Hc. apply in_or_app. right. now left.
    + left. exists x, l'. reflexivity.
  - destruct l as [|d l]; cbn in E.
    + destruct needle as [|d n]; cbn in E.
      * left. exists a, []. now rewrite app_nil_r.
      * injection E as -> _. exfalso. apply Hc. now left.
    + injection E as -> ->. right. exists l, y. reflexivity.
Qed.

(** A string without the needle's first character does not contain it. *)
Lemma substring_needs_head (h : N) (needle s : pystr) :
  ~ In h s -> ~ substring (h :: needle) s.
Proof.
  intros Hs (a & b & ->). apply Hs. apply in_or_app. right. now left.
Qed.

Lemma contains_false_iff (s needle : pystr) :
  contains s needle = false <-> ~ substring needle s.
Proof.
  rewrite <- contains_iff. now destruct (contains s needle).
Qed.

(** ** The prompt *)

Lemma not_in_by_test (c : N) (s : pystr) :
  forallb (fun d => negb (d =? c)) s = true -> ~ In c s.
Proof.
  rewrite forallb_forall. intros H Hc. specialize (H c Hc).
  now rewrite N.eqb_refl in H.
Qed.

Lemma uint_digits (d : Decimal.uint) (c : N) :
  In c (lit (NilEmpty.string_of_uint d)) -> 48 <= c <= 57.
Proof.
  unfold lit. induction d; cbn; try contradiction; intros [<-|H]; auto; lia.
Qed.

(** [str(n)] is made of digits and possibly a sign. *)
Lemma str_of_Z_chars (z : Z) (c : N) :
  In c (str_of_Z z) -> c = 45 \/ 48 <= c <= 57.
Proof.
  unfold str_of_Z, NilZero.string_of_int.
  destruct (Z.to_int z) as [d|d].
  - intros H. right. destruct d; try (now apply uint_digits in H).
    cbn in H. destruct H as [<-|[]]. lia.
  - intros H. change (In c (45 :: lit (NilZero.string_of_uint d))) in H.
    destruct H as [<-|H]; [now left|right].
    destruct d; try (now apply uint_digits in H).
    cbn in H. destruct H as [<-|[]]. lia.
Qed.

Lemma constraint_text_absent (cs : option pystr) :
  truthy_opt cs = false -> constraint_text cs = [].
Proof.
  unfold constraint_text. intros H. destruct cs; [now rewrite H|reflexivity].
Qed.

Lemma build_prompt_without_clause (count : Z) (name_type theme : pystr)
    (cs : option pystr) :
  truthy_opt cs = false ->
  build_prompt count name_type theme cs =
  prompt_head count name_type theme ++ prompt_tail.
Proof.
  intros H. unfold build_prompt. now rewrite (constraint_text_absent cs H).
Qed.

(** The prompt without a clause, cut at the characters around the two
    interpolated strings. *)
Lemma prompt_shape (count : Z) (name_type theme : pystr) :
  prompt_head count name_type theme ++ prompt_tail =
  (lit "Generate exactly " ++ str_of_Z count ++ lit " creative")
    ++ 32 :: name_type
    ++ 32 :: lit "for the theme: "
    ++ DQUOTE :: theme
    ++ DQUOTE :: (lit "." ++ [NL] ++ prompt_tail).
Proof.
  unfold prompt_head. rewrite <- !app_assoc. reflexivity.
Qed.

Lemma prompt_without_marker (count : Z) (name_type theme : pystr) :
  contains name_type clause_marker = false ->
  contains theme clause_marker = false ->
  contains (prompt_head count name_type theme ++ prompt_tail) clause_marker = false.
Proof.
  rewrite !contains_false_iff. intros Hn Ht H.
  rewrite prompt_shape in H.
  apply substring_separator in H as [H|H];
    [|apply substring_separator in H as [H|H];
      [|apply substring_separator in H as [H|H];
        [|apply substring_separator in H as [H|H]|]|]|];
    try (apply not_in_by_test; reflexivity); try contradiction.
  - revert H. apply (substring_needs_head 67 (lit "onstraints:")).
    intros [H|[H|H]%in_app_or]%in_app_or.
    + revert H. apply not_in_by_test. reflexivity.
    + apply str_of_Z_chars in H. lia.
    + revert H. apply not_in_by_test. reflexivity.
  - revert H. apply contains_false_iff. reflexivity.
  - revert H. apply contains_false_iff. reflexivity.
Qed.

Lemma prompt_with_clause (count : Z) (name_type theme c : pystr) :
  c <> [] ->
  substring (lit "Constraints: " ++ c ++ lit ".")
    (build_prompt count name_type theme (Some c)).
Proof.
  intros N. exists (prompt_head count name_type theme), prompt_tail.
  unfold build_prompt, constraint_text. destruct c; [contradiction|reflexivity].
Qed.

(** C7: without constraints ([None] or the empty string) the prompt is the
    text before the clause followed directly by the text after it, and it
    has no ["Constraints:"] unless the name type or the theme brings one;
    with ["must start with Z"] it contains
    ["Constraints: must start with Z."]. *)
Theorem prompt_constraints_clause (count : Z) (name_type theme : pystr) :
  (forall cs, truthy_opt cs = false ->
     build_prompt count name_type theme cs =
       prompt_head count name_type theme ++ prompt_tail /\
     (contains name_type clause_marker = false ->
      contains theme clause_marker = false ->
      contains (build_prompt count name_type theme cs) clause_marker = false)) /\
  contains (build_prompt count name_type theme (Some (lit "must start with Z")))
    (lit "Constraints: must start with Z.") = true.
Proof.
  split.
  - intros cs H. rewrite (build_prompt_without_clause _ _ _ _ H).
    split; [reflexivity|apply prompt_without_marker].
  - apply contains_iff.
    exact (prompt_with_clause count name_type theme (lit "must start with Z")
             ltac:(discriminate)).
Qed.

(** ** The clamp *)

Lemma py_min_spec (a b : Z) : py_min a b = Z.min a b.
Proof. unfold py_min. destruct (Z.ltb_spec b a); lia. Qed.

Lemma py_max_spec (a b : Z) : py_max a b = Z.max a b.
Proof. unfold py_max. rewrite Z.gtb_ltb. destruct (Z.ltb_spec a b); lia. Qed.

Lemma clamp_count_max_min (c : Z) : clamp_count c = Z.max 1 (Z.min c 20).
Proof. unfold clamp_count. now rewrite py_min_spec, py_max_spec. Qed.

Lemma clamp_count_range (c : Z) : (1 <= clamp_count c <= 20)%Z.
Proof. rewrite clamp_count_max_min. lia. Qed.

(** ** The requester *)

(** One run of [generate_creative_names]: one line is printed, one request
    is sent, and a string is returned whatever the call does. *)
Lemma generate_creative_names_run (c : client) (name_type theme : pystr)
    (count : Z) (cs : option pystr) (t : pyfloat) (w : world) :
  generate_creative_names c name_type theme count cs t w =
  (Ok (requester_result c w (request_of name_type theme count cs t)),
   World (remote w) (stdin w) (stdout w ++ sending_line)
     (calls w ++ [request_of name_type theme count cs t])).
Proof.
  unfold generate_creative_names, try_except, generate_content, lift, print,
    write, request_of, requester_result, sending_line, mbind, io_bind, mret, io_ret.
  cbv beta iota zeta. cbn [stdin stdout calls remote].
  destruct (remote w (api_key c) _) as [response|e]; [|reflexivity].
  now destruct (extract_text response).
Qed.

(** C3: the count used is [max(1, min(count, 20))]: 1 below 1, 20 above 20,
    unchanged in between; it is the count of the prompt that is sent. *)
Theorem clamp_count_spec (count : Z) :
  clamp_count count = Z.max 1 (Z.min count 20) /\
  clamp_count count =
    (if (count <? 1)%Z then 1 else if (20 <? count)%Z then 20 else count)%Z /\
  (clamp_count 0 = 1 /\ clamp_count 37 = 20 /\ clamp_count 5 = 5)%Z /\
  forall c name_type theme cs t w,
    calls (snd (generate_creative_names c name_type theme count cs t w)) =
    calls w ++ [Request MODEL_NAME
                  (build_prompt (Z.max 1 (Z.min count 20)) name_type theme cs)
                  (GenerateContentConfig the_system_instruction t 800)].
Proof.
  split; [apply clamp_count_max_min|]. split; [|split; [now cbn|]].
  - rewrite clamp_count_max_min.
    destruct (Z.ltb_spec count 1); [lia|]. destruct (Z.ltb_spec 20 count); lia.
  - intros. rewrite generate_creative_names_run. cbn [snd calls].
    unfold request_of. now rewrite clamp_count_max_min.
Qed.

(** C4: when the remote call raises [e], the requester returns
    ["API Error: Failed to generate content: "] followed by [str(e)]; for
    the message ["timeout"] that is
    ["API Error: Failed to generate content: timeout"]. *)
Theorem generate_creative_names_api_error (c : client) (name_type theme : pystr)
    (count : Z) (cs : option pystr) (t : pyfloat) (w : world) (e : pyexn) :
  remote w (api_key c) (request_of name_type theme count cs t) = Err e ->
  fst (generate_creative_names c name_type theme count cs t w) =
    Ok (lit "API Error: Failed to generate content: " ++ exn_str e) /\
  (exn_str e = lit "timeout" ->
   fst (generate_creative_names c name_type theme count cs t w) =
     Ok (lit "API Error: Failed to generate content: timeout")).
Proof.
  intros H. rewrite generate_creative_names_run. unfold requester_result.
  rewrite H. cbn [fst].
  split; [reflexivity|]. intros E. unfold api_error. now rewrite E.
Qed.

(** The requester never raises. *)
Lemma generate_creative_names_returns (c : client) (name_type theme : pystr)
    (count : Z) (cs : option pystr) (t : pyfloat) (w : world) :
  exists s, fst (generate_creative_names c name_type theme count cs t w) = Ok s.
Proof. rewrite generate_creative_names_run. eauto. Qed.

(** ** The start-up block *)

Lemma load_dotenv_lookup_None (file : option (gmap string pystr))
    (env : gmap string pystr) (name : string) :
  os_getenv (load_dotenv file env) name = None <->
  env !! name = None /\
  match file with Some f => f !! name = None | None => True end.
Proof.
  unfold os_getenv, load_dotenv. destruct file as [f|].
  - apply lookup_union_None.
  - tauto.
Qed.

(** C8: without the credential in the environment, once the settings file
    has been loaded, the script ends at once with the [EnvironmentError]:
    nothing is written, nothing is read, no request is sent, and the error is
    the outcome of the run. *)
Theorem script_missing_key (h : host) (w : world) :
  os_getenv (load_dotenv (dotenv_file h) (environ h)) "GEMINI_API_KEY" = None ->
  script h w =
  (Err (Raise EnvironmentError
          (lit "Missing GEMINI_API_KEY in .env file. Please create one.")), w).
Proof.
  intros H. unfold script, module_init. now rewrite H.
Qed.

(** An empty credential is treated like a missing one. *)
Lemma script_empty_key (h : host) (w : world) :
  os_getenv (load_dotenv (dotenv_file h) (environ h)) "GEMINI_API_KEY" = Some [] ->
  script h w = (Err missing_key, w).
Proof.
  intros H. unfold script, module_init. now rewrite H.
Qed.

(** ** main *)

Section Main.

Variables (c : client) (w : world) (name_type theme raw : pystr) (rest : list pystr).
Hypothesis three_lines : stdin w = name_type :: theme :: raw :: rest.

(** A required field is the empty string: the message is printed and no
    request is sent. *)
Lemma main_missing_field :
  name_type = [] \/ theme = [] ->
  main c w =
  (Ok tt, World (remote w) rest
            (stdout w ++ preamble ++ required_message ++ [NL]) (calls w)).
Proof using three_lines.
  intros H. destruct w as [r i o cl]. cbn in three_lines. subst i.
  unfold main, print, write, input, mbind, io_bind.
  cbv beta iota zeta delta [stdin stdout calls remote].
  assert (negb (truthy (PStr name_type)) || negb (truthy (PStr theme)) = true) as ->.
  { destruct H as [-> | ->]; [reflexivity|]. cbn. now rewrite orb_true_r. }
  unfold preamble. rewrite <- !app_assoc. reflexivity.
Qed.

(** Both fields are non-empty: one request is sent, with the constraints
    trimmed, and its answer is printed. *)
Lemma main_generates :
  name_type <> [] -> theme <> [] ->
  let req := request_of name_type theme default_count (constraints_of raw)
               default_temperature in
  main c w =
  (Ok tt, World (remote w) rest
            (stdout w ++ preamble ++ generating_line ++ sending_line
               ++ requester_result c w req ++ [NL] ++ complete_line)
            (calls w ++ [req])).
Proof using three_lines.
  intros Hn Ht req. subst req. destruct w as [r i o cl]. cbn in three_lines. subst i.
  unfold main, print, write, input, mbind, io_bind.
  cbv beta iota zeta delta [stdin stdout calls remote].
  assert (negb (truthy (PStr name_type)) || negb (truthy (PStr theme)) = false) as ->.
  { destruct name_type, theme; try contradiction; reflexivity. }
  assert ((if truthy (PStr (strip raw)) then Some (strip raw) else None)
          = constraints_of raw) as ->.
  { unfold constraints_of. now destruct (strip raw). }
  rewrite generate_creative_names_run. unfold requester_result.
  cbv beta iota zeta delta [stdin stdout calls remote].
  unfold preamble, generating_line, complete_line.
  rewrite <- !app_assoc. reflexivity.
Qed.


End Main.

(** C2: with a theme of one space and a name type, [main] does not stop at
    the message: the theme is not trimmed, the check passes and a request is
    sent. *)
Theorem main_blank_theme_sends_request :
  blank (lit " ") = true /\
  calls (snd (main sample_client blank_theme_world)) =
    [request_of (lit "company names") (lit " ") default_count None
       default_temperature] /\
  contains (stdout (snd (main sample_client blank_theme_world)))
    required_message = false.
Proof. vm_compute. repeat split. Qed.

(** * Instances *)

Lemma generate_creative_names_api_error_witness :
  fst (generate_creative_names sample_client (lit "company names") (lit "AI") 5
         None default_temperature (sample_world (Err timeout_error) [])) =
  Ok (lit "API Error: Failed to generate content: timeout").
Proof.
  exact (proj2 (generate_creative_names_api_error sample_client
                  (lit "company names") (lit "AI") 5 None default_temperature
                  (sample_world (Err timeout_error) []) timeout_error eq_refl)
           eq_refl).
Defined.

Lemma extract_text_direct_text_witness :
  extract_text
    (response_of_parts [("text"%string, PStr (lit "Foo"))]
       [text_part "A"; text_part "B"]) = Ok (lit "Foo").
Proof.
  apply (extract_text_direct_text _ (lit "Foo")); [reflexivity|discriminate].
Defined.

Lemma extract_text_joins_fragments_witness :
  extract_text (response_of_parts [] [text_part "A"; text_part "B"]) =
    Ok (lit "A" ++ [NL] ++ lit "B") /\
  extract_text (response_of_parts [] odd_parts) = Ok (lit "<Response object>").
Proof.
  split.
  - exact (proj1 (extract_text_joins_fragments
                    (response_of_parts [] [text_part "A"; text_part "B"])
                    (py_list [candidate_of_parts [text_part "A"; text_part "B"]])
                    (candidate_of_parts [text_part "A"; text_part "B"])
                    (obj "Content"
                       [("parts"%string, py_list [text_part "A"; text_part "B"])])
                    (py_list [text_part "A"; text_part "B"])
                    [text_part "A"; text_part "B"]
                    eq_refl eq_refl eq_refl eq_refl eq_refl eq_refl)
             [lit "A"; lit "B"] eq_refl ltac:(discriminate)).
  - exact (proj2 (extract_text_joins_fragments
                    (response_of_parts [] odd_parts)
                    (py_list [candidate_of_parts odd_parts])
                    (candidate_of_parts odd_parts)
                    (obj "Content" [("parts"%string, py_list odd_parts)])
                    (py_list odd_parts) odd_parts
                    eq_refl eq_refl eq_refl eq_refl eq_refl eq_refl)
             eq_refl).
Defined.

(** A part with an empty text between two others: the specification's
    wording keeps an empty line for it, the code skips it. *)
Lemma extract_text_skips_empty_text :
  lacks (response_of_parts [] gap_parts) "text" = true /\
  worded_parts_text gap_parts = Some (lit "A" ++ [NL; NL] ++ lit "B") /\
  extract_text (response_of_parts [] gap_parts) = Ok (lit "A" ++ [NL] ++ lit "B") /\
  extract_text (response_of_parts [] gap_parts) <> Ok (lit "A" ++ [NL; NL] ++ lit "B").
Proof. vm_compute. repeat split. discriminate. Qed.

Lemma prompt_constraints_clause_witness :
  contains (build_prompt 5 (lit "company names") (lit "AI") None) clause_marker = false /\
  contains
    (build_prompt 5 (lit "company names") (lit "AI") (Some (lit "must start with Z")))
    (lit "Constraints: must start with Z.") = true.
Proof.
  destruct (prompt_constraints_clause 5 (lit "company names") (lit "AI")) as [H1 H2].
  split; [|exact H2].
  apply (H1 None); reflexivity.
Defined.

Lemma script_missing_key_witness :
  script (Host ∅ None true) blank_theme_world =
  (Err (Raise EnvironmentError
          (lit "Missing GEMINI_API_KEY in .env file. Please create one.")),
   blank_theme_world).
Proof. apply script_missing_key. reflexivity. Defined.

Lemma extract_text_without_fragments_witness :
  extract_text empty_part_response = Ok (lit "Deep").
Proof.
  eapply extract_text_without_fragments with (content := deep_content);
    reflexivity.
Defined.



(** * Further properties *)

(** ** extract_text *)

(** X1: when the direct [text] attribute is harmless (missing, a string, or
    falsy) [extract_text] does not raise: every later step is inside a
    [try].  On an object with neither [text] nor [candidates] the result is
    the object's own stringification, or ["NO_TEXT_FOUND"] when stringifying
    raises. *)
Theorem extract_text_harmless_text_no_raise (response : pyval) :
  direct_text_ok response = true ->
  (forall e, extract_text response <> Err e) /\
  (py_hasattr response "text" = Ok false ->
   py_hasattr response "candidates" = Ok false ->
   extract_text response =
   Ok (match py_str response with
       | Ok t => t
       | Err _ => lit "NO_TEXT_FOUND"
       end)).
Proof.
  intros H. destruct (extract_text_ok_of_harmless response H) as [s Hs].
  split; [intros e; congruence|].
  intros Ht Hc. unfold extract_text, has_truthy, structured. now rewrite Ht, Hc.
Qed.

(** X2: a direct text made of whitespace only is still taken: the result is
    the empty string, whatever the candidates hold. *)
Theorem extract_text_blank_direct_text (response : pyval) (s : pystr) :
  py_getattr response "text" = Ok (PStr s) -> s <> [] -> blank s = true ->
  extract_text response = Ok [].
Proof.
  intros H N B. unfold extract_text.
  rewrite (has_truthy_nonempty_str _ _ _ H N). cbn. rewrite H. cbn.
  apply strip_nil_iff in B. now rewrite B.
Qed.

(** X3: only the first candidate is looked at: two responses with the same
    direct text and stringification whose candidate sequences start with the
    same candidate give the same result. *)
Theorem extract_text_first_candidate_only (r1 r2 cand : pyval)
    (cls1 cls2 : pystr) (l1 l2 : list pyval) (s1 s2 : result pystr) :
  py_getattr r1 "text" = py_getattr r2 "text" ->
  py_str r1 = py_str r2 ->
  py_getattr r1 "candidates" = Ok (PSeq cls1 (cand :: l1) s1) ->
  py_getattr r2 "candidates" = Ok (PSeq cls2 (cand :: l2) s2) ->
  extract_text r1 = extract_text r2.
Proof.
  intros Ht Hs H1 H2. unfold extract_text. rewrite !has_truthy_unfold, Ht.
  unfold structured.
  rewrite (py_hasattr_of_getattr _ _ _ H1), (py_hasattr_of_getattr _ _ _ H2).
  cbn. rewrite H1, H2. cbn. unfold final_fallback. now rewrite Hs.
Qed.

Section ContentPath.

(** A response without a usable direct text whose first candidate has a
    content. *)
Variables (response cs cand content : pyval).
Hypothesis no_direct_text : lacks response "text" = true.
Hypothesis has_candidates : py_getattr response "candidates" = Ok cs.
Hypothesis first_candidate : py_index0 cs = Ok cand.
Hypothesis has_content : py_getattr cand "content" = Ok content.

(** X4: a content without a [parts] attribute and with a non-empty text of
    its own yields that text, trimmed. *)
Theorem extract_text_content_text_without_parts (s : pystr) :
  py_hasattr content "parts" = Ok false ->
  py_getattr content "text" = Ok (PStr s) -> s <> [] ->
  extract_text response = Ok (strip s).
Proof using All.
  intros Hp Ht N.
  rewrite extract_text_fallthrough by now apply lacks_has_truthy.
  rewrite (structured_at_content _ _ _ _ has_candidates first_candidate has_content).
  unfold from_parts. rewrite Hp. cbn.
  rewrite (has_truthy_nonempty_str _ _ _ Ht N). cbn. now rewrite Ht.
Qed.

(** X5: one part whose text is non-empty but not a string spoils the whole
    structured extraction: the join raises, the error is swallowed, and the
    result is the final fallback; the texts of the other parts and the
    content's own text are not used. *)
Theorem extract_text_nonstring_part_text (parts p v : pyval) (ps : list pyval) :
  py_getattr content "parts" = Ok parts ->
  py_iter parts = Ok ps ->
  In p ps -> py_getattr p "text" = Ok v -> truthy v = true ->
  (forall s, v <> PStr s) ->
  extract_text response = Ok (final_fallback response).
Proof using All.
  intros Hp Hi Hin Hv Tv Ns.
  rewrite extract_text_fallthrough by now apply lacks_has_truthy.
  rewrite (structured_at_content _ _ _ _ has_candidates first_candidate has_content).
  assert (exists e, from_parts content = Err e) as [e ->].
  { unfold from_parts. rewrite (py_hasattr_of_getattr _ _ _ Hp). cbn.
    rewrite Hp. cbn. rewrite Hi. cbn.
    destruct (collect_parts ps []) as [out|e] eqn:C; cbn; [|eauto].
    destruct (collect_parts_keeps _ _ _ C) as [_ K].
    pose proof (K p v Hin Hv Tv) as Hout.
    destruct out as [|x out]; [destruct Hout|].
    unfold py_join.
    destruct (str_items_nonstring v (x :: out) Hout Ns 0%nat) as [e ->]. cbn. eauto. }
  reflexivity.
Qed.

End ContentPath.

(** X6: when the candidates cannot be indexed (an empty list, [None], ...)
    or the first candidate has no [content], the error or the miss is
    absorbed and the result is the final fallback. *)
Theorem extract_text_unusable_candidates (response cs : pyval) :
  lacks response "text" = true ->
  py_getattr response "candidates" = Ok cs ->
  (exists e, py_index0 cs = Err e) \/
  (exists cand, py_index0 cs = Ok cand /\ py_hasattr cand "content" = Ok false) ->
  extract_text response = Ok (final_fallback response).
Proof.
  intros Ht Hc H.
  rewrite extract_text_fallthrough by now apply lacks_has_truthy.
  unfold structured. rewrite (py_hasattr_of_getattr _ _ _ Hc). cbn. rewrite Hc. cbn.
  destruct H as [[e ->]|(cand & -> & Hn)]; cbn; [reflexivity|].
  now rewrite Hn.
Qed.

(** ** generate_creative_names *)

(** X7: [generate_creative_names] never raises: it returns a string, prints
    its progress line, leaves the input alone and sends exactly one
    request. *)
Theorem generate_creative_names_never_raises (c : client) (name_type theme : pystr)
    (count : Z) (cs : option pystr) (t : pyfloat) (w : world) :
  exists s,
    generate_creative_names c name_type theme count cs t w =
    (Ok s, World (remote w) (stdin w)
             (stdout w ++ lit "Sending request to gemini-2.0-flash..." ++ [NL])
             (calls w ++ [request_of name_type theme count cs t])).
Proof. rewrite generate_creative_names_run. eauto. Qed.

(** X8: an exception raised while extracting the text of the answer is
    reported like a failed call: the extraction runs inside the same [try]. *)
Theorem generate_creative_names_reports_extraction_error (c : client)
    (name_type theme : pystr) (count : Z) (cs : option pystr) (t : pyfloat)
    (w : world) (response : pyval) (e : pyexn) :
  remote w (api_key c) (request_of name_type theme count cs t) = Ok response ->
  extract_text response = Err e ->
  fst (generate_creative_names c name_type theme count cs t w) =
  Ok (lit "API Error: Failed to generate content: " ++ exn_str e).
Proof.
  intros H E. rewrite generate_creative_names_run. unfold requester_result.
  now rewrite H, E.
Qed.

(** X9: non-empty constraints always reach the prompt of the request, as
    ["Constraints: "], the constraints and a full stop. *)
Theorem generate_creative_names_sends_constraints (c : client)
    (name_type theme cs : pystr) (count : Z) (t : pyfloat) (w : world) :
  cs <> [] ->
  exists req,
    calls (snd (generate_creative_names c name_type theme count (Some cs) t w)) =
      calls w ++ [req] /\
    contains (contents req) (lit "Constraints: " ++ cs ++ lit ".") = true.
Proof.
  intros N. rewrite generate_creative_names_run. cbn [snd calls].
  eexists. split; [reflexivity|]. apply contains_iff.
  now apply prompt_with_clause.
Qed.

(** ** main *)

(** X10: with fewer than three lines on standard input [main] ends with
    [EOFError], whatever the lines are, and no request is sent. *)
Theorem main_eof (c : client) (w : world) :
  (length (stdin w) < 3)%nat ->
  fst (main c w) = Err (Raise EOFError (lit "EOF when reading a line")) /\
  calls (snd (main c w)) = calls w /\
  stdin (snd (main c w)) = [].
Proof.
  intros H. destruct w as [r i o cl]. cbn in H.
  destruct i as [|a [|b [|d i]]]; [| | |cbn in H; lia];
    unfold main, print, write, input, mbind, io_bind;
    cbv beta iota zeta delta [stdin stdout calls remote fst snd];
    repeat split.
Qed.

Section MainRuns.

Variables (c : client) (w : world) (name_type theme raw : pystr) (rest : list pystr).
Hypothesis three_lines : stdin w = name_type :: theme :: raw :: rest.

(** X11: when the name type or the theme is the empty string, [main] prints
    the message, returns normally and sends no request; the three lines are
    consumed. *)
Theorem main_stops_on_empty_field :
  name_type = [] \/ theme = [] ->
  main c w =
  (Ok tt, World (remote w) rest
            (stdout w ++ preamble ++ [NL]
               ++ lit "Type and Theme are required. Exiting." ++ [NL])
            (calls w)).
Proof using three_lines.
  intros H. rewrite (main_missing_field c w name_type theme raw rest three_lines H).
  unfold required_message. now rewrite <- !app_assoc.
Qed.

(** X12: with a name type and a theme, [main] sends exactly one request,
    for five names at temperature 0.9, and prints, in this order, the
    banner and prompts, the generating line, the progress line, the answer
    and the completion banner. *)
Theorem main_valid_run :
  name_type <> [] -> theme <> [] ->
  main c w =
  (Ok tt, World (remote w) rest
            (stdout w ++ preamble ++ generating_line ++ sending_line
               ++ requester_result c w
                    (request_of name_type theme 5 (constraints_of raw) (Decimal 9 (-1)))
               ++ [NL] ++ complete_line)
            (calls w ++ [request_of name_type theme 5 (constraints_of raw)
                           (Decimal 9 (-1))])).
Proof using three_lines.
  intros Hn Ht.
  exact (main_generates c w name_type theme raw rest three_lines Hn Ht).
Qed.

(** X13: a failed call does not stop [main]: the error string is printed in
    place of the answer, followed by the completion banner, and [main]
    returns normally. *)
Theorem main_completes_after_api_error (e : pyexn) :
  name_type <> [] -> theme <> [] ->
  remote w (api_key c)
    (request_of name_type theme default_count (constraints_of raw)
       default_temperature) = Err e ->
  main c w =
  (Ok tt, World (remote w) rest
            (stdout w ++ preamble ++ generating_line ++ sending_line
               ++ (lit "API Error: Failed to generate content: " ++ exn_str e)
               ++ [NL] ++ complete_line)
            (calls w ++ [request_of name_type theme default_count
                           (constraints_of raw) default_temperature])).
Proof using three_lines.
  intros Hn Ht He.
  rewrite (main_generates c w name_type theme raw rest three_lines Hn Ht).
  cbv zeta. unfold requester_result. now rewrite He.
Qed.

(** X14: constraints typed with surrounding whitespace reach the prompt
    trimmed: the request's prompt contains ["Constraints: "], the trimmed
    line and a full stop. *)
Theorem main_sends_trimmed_constraints :
  name_type <> [] -> theme <> [] -> blank raw = false ->
  exists req,
    calls (snd (main c w)) = calls w ++ [req] /\
    contains (contents req) (lit "Constraints: " ++ strip raw ++ lit ".") = true.
Proof using three_lines.
  intros Hn Ht B.
  rewrite (main_generates c w name_type theme raw rest three_lines Hn Ht).
  cbv zeta. cbn [snd calls]. eexists. split; [reflexivity|].
  rewrite constraints_of_blank, B. apply contains_iff.
  apply prompt_with_clause. intros E. apply strip_nil_iff in E. congruence.
Qed.

End MainRuns.

(** ** The script *)

(** X15: a credential that is present but empty is refused like a missing
    one, before anything is written, read or sent. *)
Theorem script_rejects_empty_key (h : host) (w : world) :
  os_getenv (load_dotenv (dotenv_file h) (environ h)) "GEMINI_API_KEY" = Some [] ->
  script h w =
  (Err (Raise EnvironmentError
          (lit "Missing GEMINI_API_KEY in .env file. Please create one.")), w).
Proof.
  intros H. unfold script, module_init. now rewrite H.
Qed.

(** X16: with the credential but without the SDK the script ends with the
    [ImportError] that tells how to install it; nothing is written, read or
    sent. *)
Theorem script_missing_sdk (h : host) (w : world) (k : pystr) :
  os_getenv (load_dotenv (dotenv_file h) (environ h)) "GEMINI_API_KEY" = Some k ->
  k <> [] -> sdk_installed h = false ->
  script h w =
  (Err (Raise ImportError
          (lit "The Google GenAI SDK is not installed. Install with: pip install --upgrade google-genai python-dotenv")),
   w).
Proof.
  intros H N S. unfold script, module_init. rewrite H, S.
  destruct k; [contradiction|reflexivity].
Qed.

(** X17: the credential read at start-up is the one the request is made
    with: with a non-empty key [k], the SDK, and three lines of which the
    first two are non-empty, the script prints what the remote service
    answers to the holder of [k]. *)
Theorem script_uses_credential (h : host) (w : world) (k name_type theme raw : pystr)
    (rest : list pystr) :
  os_getenv (load_dotenv (dotenv_file h) (environ h)) "GEMINI_API_KEY" = Some k ->
  k <> [] -> sdk_installed h = true ->
  stdin w = name_type :: theme :: raw :: rest ->
  name_type <> [] -> theme <> [] ->
  let req := request_of name_type theme 5 (constraints_of raw) (Decimal 9 (-1)) in
  script h w =
  (Ok tt, World (remote w) rest
            (stdout w ++ preamble ++ generating_line ++ sending_line
               ++ match remote w k req with
                  | Ok response =>
                      match extract_text response with
                      | Ok s => s
                      | Err e => api_error e
                      end
                  | Err e => api_error e
                  end
               ++ [NL] ++ complete_line)
            (calls w ++ [req])).
Proof.
  intros H N S L Hn Ht req. unfold script, module_init. rewrite H, S.
  destruct k as [|a k]; [contradiction|]. cbn [truthy_opt negb default].
  exact (main_generates (Client (a :: k)) w name_type theme raw rest L Hn Ht).
Qed.

(** X18: a key that only the [.env] file supplies is the one the client is
    created with. *)
Theorem module_init_key_from_dotenv (h : host) (f : gmap string pystr) (k : pystr) :
  environ h !! "GEMINI_API_KEY"%string = None ->
  dotenv_file h = Some f ->
  f !! "GEMINI_API_KEY"%string = Some k ->
  k <> [] -> sdk_installed h = true ->
  module_init h = Ok (Client k).
Proof.
  intros He Hf Hk N S. unfold module_init, os_getenv, load_dotenv.
  rewrite Hf, (lookup_union_r _ _ _ He), Hk, S.
  destruct k; [contradiction|reflexivity].
Qed.

(** ** Instances of the further properties *)

Lemma extract_text_harmless_text_no_raise_witness :
  (forall e, extract_text empty_object <> Err e) /\
  extract_text empty_object = Ok (lit "<object object>").
Proof.
  destruct (extract_text_harmless_text_no_raise empty_object eq_refl) as [H1 H2].
  split; [exact H1|]. exact (H2 eq_refl eq_refl).
Defined.

Lemma extract_text_blank_direct_text_witness :
  extract_text blank_text_response = Ok [].
Proof.
  apply (extract_text_blank_direct_text _ (lit "  "));
    [reflexivity|discriminate|reflexivity].
Defined.

Lemma extract_text_first_candidate_only_witness :
  extract_text two_candidates_response =
  extract_text (response_of_parts [] [text_part "A"]).
Proof.
  eapply extract_text_first_candidate_only; reflexivity.
Defined.

Lemma extract_text_content_text_without_parts_witness :
  extract_text (response_of_content [] text_only_content) = Ok (lit "Only").
Proof.
  eapply extract_text_content_text_without_parts
    with (content := text_only_content) (s := lit " Only ");
    try reflexivity.
  discriminate.
Defined.

Lemma extract_text_nonstring_part_text_witness :
  extract_text (response_of_parts [] odd_parts) = Ok (lit "<Response object>").
Proof.
  eapply extract_text_nonstring_part_text
    with (ps := odd_parts) (p := obj "Part" [("text"%string, PInt 7)]) (v := PInt 7);
    try reflexivity.
  - right. left. reflexivity.
  - discriminate.
Defined.

Lemma extract_text_unusable_candidates_witness :
  extract_text no_candidates_response = Ok (lit "<Response object>").
Proof.
  eapply extract_text_unusable_candidates; [reflexivity|reflexivity|].
  left. eexists. reflexivity.
Defined.

Lemma generate_creative_names_reports_extraction_error_witness :
  fst (generate_creative_names sample_client (lit "company names") (lit "AI") 5
         None default_temperature (sample_world (Ok int_text_response) [])) =
  Ok (lit "API Error: Failed to generate content: 'int' object has no attribute 'strip'").
Proof.
  apply generate_creative_names_reports_extraction_error
    with (response := int_text_response) (e := no_attribute (PInt 5) "strip");
    reflexivity.
Defined.

Lemma generate_creative_names_sends_constraints_witness :
  exists req,
    calls (snd (generate_creative_names sample_client (lit "company names")
                  (lit "AI") 5 (Some (lit "must start with Z")) default_temperature
                  (sample_world (Ok empty_object) []))) = [] ++ [req] /\
    contains (contents req) (lit "Constraints: must start with Z.") = true.
Proof.
  apply (generate_creative_names_sends_constraints sample_client
           (lit "company names") (lit "AI") (lit "must start with Z")).
  discriminate.
Defined.

Lemma main_eof_witness :
  fst (main sample_client one_line_world) =
    Err (Raise EOFError (lit "EOF when reading a line")) /\
  calls (snd (main sample_client one_line_world)) = [] /\
  stdin (snd (main sample_client one_line_world)) = [].
Proof. apply (main_eof sample_client one_line_world). cbn. lia. Defined.

Lemma main_stops_on_empty_field_witness :
  exists out,
    main sample_client empty_theme_world =
    (Ok tt, World (remote empty_theme_world) [] out []).
Proof.
  eexists.
  apply (main_stops_on_empty_field sample_client empty_theme_world
           (lit "company names") [] (lit "short") [] eq_refl).
  now right.
Defined.

Lemma main_valid_run_witness :
  exists out req,
    main sample_client blank_constraints_world =
    (Ok tt, World (remote blank_constraints_world) [] out [req]).
Proof.
  eexists. eexists.
  apply (main_valid_run sample_client blank_constraints_world
           (lit "company names") (lit "AI") (lit "   ") [] eq_refl);
    discriminate.
Defined.

Lemma main_completes_after_api_error_witness :
  fst (main sample_client timeout_world) = Ok tt.
Proof.
  rewrite (main_completes_after_api_error sample_client timeout_world
             (lit "company names") (lit "AI") [] [] eq_refl timeout_error);
    [reflexivity|discriminate|discriminate|reflexivity].
Defined.

Lemma main_sends_trimmed_constraints_witness :
  exists req,
    calls (snd (main sample_client constrained_world)) = [] ++ [req] /\
    contains (contents req) (lit "Constraints: must start with Z.") = true.
Proof.
  apply (main_sends_trimmed_constraints sample_client constrained_world
           (lit "company names") (lit "AI") (lit " must start with Z ") [] eq_refl);
    [discriminate|discriminate|reflexivity].
Defined.

Lemma script_rejects_empty_key_witness :
  script host_empty_key blank_theme_world =
  (Err (Raise EnvironmentError
          (lit "Missing GEMINI_API_KEY in .env file. Please create one.")),
   blank_theme_world).
Proof. apply script_rejects_empty_key. reflexivity. Defined.

Lemma script_missing_sdk_witness :
  fst (script host_without_sdk blank_theme_world) =
  Err (Raise ImportError
         (lit "The Google GenAI SDK is not installed. Install with: pip install --upgrade google-genai python-dotenv")).
Proof.
  rewrite (script_missing_sdk host_without_sdk blank_theme_world (lit "secret"));
    [reflexivity|reflexivity|discriminate|reflexivity].
Defined.

Lemma script_uses_credential_witness :
  fst (script host_with_key blank_constraints_world) = Ok tt.
Proof.
  rewrite (script_uses_credential host_with_key blank_constraints_world
             (lit "secret") (lit "company names") (lit "AI") (lit "   ") []);
    [reflexivity|reflexivity|discriminate|reflexivity|reflexivity
    |discriminate|discriminate].
Defined.

Lemma module_init_key_from_dotenv_witness :
  module_init host_dotenv_key = Ok (Client (lit "secret")).
Proof.
  apply (module_init_key_from_dotenv host_dotenv_key
           {[ key_name := lit "secret" ]} (lit "secret"));
    [reflexivity|reflexivity|reflexivity|discriminate|reflexivity].
Defined.
